(** * TabbedViews: a tabbed view switcher with an edit mode

    Shallow embedding of [wandb/board/ui/src/components/TabbedViews.js]:
    the [render] method of the React component, the four event handlers it
    installs, and the JavaScript and lodash primitives they use. *)

From Stdlib Require Import ZArith Lia.
From stdpp Require Import base option list strings gmap.

Open Scope Z_scope.

Set Implicit Arguments.
Set Maximal Implicit Insertion.

(** ** JavaScript values and primitives *)

Module JS.

(** The values that flow through the component: [props.activeView] and the
    second argument of [setActiveView] are tab identifiers (strings),
    tab indices (numbers), or missing. *)
Inductive value :=
| undefined
| null
| Num (n : Z)
| Str (s : string).

(** ToBoolean. *)
Definition truthy (v : value) : bool :=
  match v with
  | undefined | null => false
  | Num n => negb (n =? 0)
  | Str s => negb (String.eqb s "")
  end.

(** [a || b] *)
Definition or (a b : value) : value := if truthy a then a else b.

(** [a === b] *)
Definition strict_eq (a b : value) : bool :=
  match a, b with
  | undefined, undefined | null, null => true
  | Num n, Num m => n =? m
  | Str s, Str t => String.eqb s t
  | _, _ => false
  end.

(** [array[i]] on an array of strings indexed by a number: an index with
    no element (negative, or at or past the length) reads [undefined]. *)
Definition get (array : list string) (i : Z) : value :=
  if i <? 0 then undefined
  else match array !! Z.to_nat i with
       | Some s => Str s
       | None => undefined
       end.

(** Exceptions raised by the code under study. *)
Inductive exn := TypeError.

(** Outcome of an evaluation that may throw. *)
Inductive result (A : Type) :=
| OK (a : A)
| Throw (e : exn).
Arguments OK {A} a.
Arguments Throw {A} e.

#[global] Instance result_ret : MRet result := fun A a => OK a.
#[global] Instance result_bind : MBind result := fun A B f m =>
  match m with
  | OK a => f a
  | Throw e => Throw e
  end.

(** The methods that every plain object inherits from [Object.prototype]. *)
Definition Object_prototype_methods : list string :=
  ["hasOwnProperty"; "isPrototypeOf"; "propertyIsEnumerable";
   "toLocaleString"; "toString"; "valueOf";
   "__defineGetter__"; "__defineSetter__";
   "__lookupGetter__"; "__lookupSetter__"]%string.

(** [Object.prototype[key].name], for the keys [Object.prototype] has:
    [constructor] is the function [Object], [__proto__] reads the prototype
    of the object, which has no [name] ([None] stands for [undefined]), and
    each method is a function named after its key. *)
Definition Object_prototype_name (key : string) : option (option string) :=
  if String.eqb key "constructor" then Some (Some "Object"%string)
  else if String.eqb key "__proto__" then Some None
  else if bool_decide (key ∈ Object_prototype_methods) then Some (Some key)
  else None.

(** [o[key].name] for a plain object [o] used as a map to records whose
    [name] is [field]: the read finds the own entry, else what [o] inherits
    from [Object.prototype]; with neither, [o[key]] is [undefined] and
    reading its [name] throws. The result is a string or [undefined]. *)
Definition member {A : Type} (o : gmap string A) (key : string)
    (field : A → string) : result (option string) :=
  match o !! key with
  | Some a => OK (Some (field a))
  | None =>
      match Object_prototype_name key with
      | Some inherited => OK inherited
      | None => Throw TypeError
      end
  end.

(** [x + s] for a string [s] and an [x] that is a string or [undefined]. *)
Definition plus (x : option string) (s : string) : string :=
  match x with
  | Some text => text +:+ s
  | None => "undefined" +:+ s
  end.

(** [array.map(f)] for a callback that may throw: elements are visited in
    order and the first exception aborts the traversal. *)
Fixpoint Array_map {A B : Type} (f : A → result B) (array : list A)
  : result (list B) :=
  match array with
  | [] => OK []
  | x :: rest => y ← f x; ys ← Array_map f rest; OK (y :: ys)
  end.

End JS.

Import JS.

(** ** lodash *)

Module Lodash.

(** [_.isNil(value)] *)
Definition isNil (v : value) : bool :=
  match v with
  | undefined | null => true
  | _ => false
  end.

(** [strictIndexOf(array, value, fromIndex)]: the first index at or after
    [fromIndex] whose element is [===] to [value], else -1. *)
Fixpoint strictIndexOf (array : list string) (v : value) (index : Z) : Z :=
  match array with
  | [] => -1
  | x :: rest =>
      if strict_eq (Str x) v then index else strictIndexOf rest v (index + 1)
  end.

(** [_.indexOf(array, value)], with no [fromIndex]: -1 on an empty
    array, else the search from index 0. No value of the model is NaN,
    so the search is the strict one. *)
Definition indexOf (array : list string) (v : value) : Z :=
  if (length array =? 0)%nat then -1 else strictIndexOf array v 0.

End Lodash.

Import Lodash.

(** ** The component *)

(** A view record; the component reads only its [name]. *)
Record View := { name : string }.

(** [this.state] *)
Record State := { editMode : bool }.

Section Component.

(** [viewType] and [viewState] are opaque to the component, as is what
    [renderView] returns. [JSON.stringify] is the host's serializer. *)
Variables ViewType ViewState Renderable : Type.
Variable JSON_stringify : ViewState → value.

(** [this.props], without the three callbacks whose invocations are
    recorded as [Call]s. *)
Record Props := {
  tabs : list string;
  views : gmap string View;
  activeView : value;
  blank : bool;
  viewType : ViewType;
  isModified : bool;
  viewState : ViewState;
  renderView : string → bool → Renderable;
}.

(** [this] *)
Record Instance := { props : Props; state : State }.

(** An invocation of a callback prop supplied by the parent. *)
Inductive Call :=
| addView (type : ViewType) (viewName : string) (initial : list value)
| setActiveView (type : ViewType) (view : value)
| updateViews (serialized : value).

(** What an event handler does, in order. *)
Inductive Effect :=
| SetState (partial : State)
| Invoke (c : Call).

(** Event handlers are closures over [this]: they read the instance and
    emit effects. *)
Definition Handler (A : Type) : Type := Instance → A * list Effect.

Definition hret {A} (a : A) : Handler A := fun _ => (a, []).
Definition hbind {A B} (m : Handler A) (k : A → Handler B) : Handler B :=
  fun this =>
    let (a, e1) := m this in
    let (b, e2) := k a this in
    (b, e1 ++ e2).

Definition this_props : Handler Props := fun this => (props this, []).
Definition this_state : Handler State := fun this => (state this, []).
Definition setState (partial : State) : Handler unit :=
  fun _ => (tt, [SetState partial]).
Definition invoke (c : Call) : Handler unit := fun _ => (tt, [Invoke c]).

#[local] Instance Handler_ret : MRet Handler := @hret.
#[local] Instance Handler_bind : MBind Handler := fun A B k m => hbind m k.

(** React applies the queued state updates once the handler has returned;
    the callback invocations are what the parent observes. *)
Definition commit (s : State) (e : Effect) : State :=
  match e with
  | SetState partial => partial
  | Invoke _ => s
  end.

Definition calls (es : list Effect) : list Call :=
  omap (fun e => match e with Invoke c => Some c | SetState _ => None end) es.

Definition dispatch (h : Handler unit) (this : Instance) : Instance * list Call :=
  let es := snd (h this) in
  ({| props := props this; state := foldl commit (state this) es |}, calls es).

(** *** Elements *)

Inductive Element :=
| span (text : string)
| Icon (iconName : string)
| Tab_Pane (body : Renderable).

(** A pane's [menuItem] is either the shorthand object [{key, content}] or
    a [<Menu.Item key=... onClick=...>] element. *)
Inductive MenuItem :=
| Shorthand (key : string) (content : Element)
| Menu_Item (key : string) (onClick : Handler unit) (children : Element).

(** A pane descriptor; [Pane_render] is its [render] closure, which reads
    [this] when the toolkit calls it and which the pane of the add control
    does not have. *)
Record Pane := {
  menuItem : MenuItem;
  Pane_render : option (Instance → Element);
}.

Record Button := {
  Button_color : option string;
  Button_floated : string;
  Button_content : string;
  Button_icon : option string;
  Button_disabled : bool;
  Button_onClick : Handler unit;
}.

Record Tab := {
  Tab_panes : list Pane;
  Tab_activeIndex : Z;
  Tab_onTabChange : Z → Handler unit;
}.

(** A child slot of the root [<div>]; [Skip] is the [false] left by a
    [cond && <element/>] whose condition fails, which renders nothing. *)
Inductive Child :=
| Skip
| ButtonEl (b : Button)
| TabEl (t : Tab).

Inductive Root := div (children : list Child).

(** *** Event handlers installed by [render] *)

(** Line 30: the [onClick] of the add control. *)
Definition add_onClick : Handler unit :=
  p ← this_props;
  invoke (addView (viewType p) "New View" []).

(** Lines 53-56: the [onClick] of the Save Changes button. *)
Definition Save_onClick : Handler unit :=
  setState {| editMode := false |};;
  p ← this_props;
  invoke (updateViews (JSON_stringify (viewState p))).

(** Line 63: the [onClick] of the mode button. *)
Definition mode_onClick : Handler unit :=
  s ← this_state;
  setState {| editMode := negb (editMode s) |}.

(** Lines 69-74: [onTabChange]. *)
Definition onTabChange (activeIndex : Z) : Handler unit :=
  p ← this_props;
  invoke (setActiveView (viewType p)
            (JS.or (JS.get (tabs p) activeIndex) (Num activeIndex))).

(** *** render *)

(** Lines 14-24: the callback mapped over [tabs]. *)
Definition tab_pane (this : Instance) (viewId : string) : result Pane :=
  viewName ← member (views (props this)) viewId name;
  OK {| menuItem := Shorthand viewId (span (plus viewName " "));
        Pane_render := Some (fun this =>
          Tab_Pane (renderView (props this) viewId (editMode (state this)))) |}.

(** Lines 25-36: the pane pushed in edit mode. *)
Definition add_pane : Pane :=
  {| menuItem := Menu_Item "add" add_onClick (Icon "plus");
     Pane_render := None |}.

(** Lines 14-37: the local [panes]. *)
Definition panes (this : Instance) : result (list Pane) :=
  panes ← Array_map (tab_pane this) (tabs (props this));
  OK (if editMode (state this) then panes ++ [add_pane] else panes).

(** Lines 38-44: the local [activeIndex]. *)
Definition activeIndex (this : Instance) : Z :=
  let activeIndex := 0 in
  if negb (isNil (activeView (props this))) then
    let activeIndex := indexOf (tabs (props this)) (activeView (props this)) in
    if activeIndex =? -1 then 0 else activeIndex
  else activeIndex.

Definition render (this : Instance) : result Root :=
  panes ← panes this;
  let activeIndex := activeIndex this in
  OK (div [
    if editMode (state this) then
      ButtonEl {| Button_color := Some "green";
                  Button_floated := "right";
                  Button_content := "Save Changes";
                  Button_icon := None;
                  Button_disabled := negb (isModified (props this));
                  Button_onClick := Save_onClick |}
    else Skip;
    ButtonEl {| Button_color := None;
                Button_floated := "right";
                Button_content :=
                  if editMode (state this) then "View Charts" else "Edit Charts";
                Button_icon :=
                  Some (if editMode (state this) then "unhide" else "configure");
                Button_disabled := false;
                Button_onClick := mode_onClick |};
    if negb (blank (props this)) || editMode (state this) then
      TabEl {| Tab_panes := panes;
               Tab_activeIndex := activeIndex;
               Tab_onTabChange := onTabChange |}
    else Skip
  ]).

(** *** Reading the rendered tree *)

Definition children_of (r : Root) : list Child :=
  match r with div cs => cs end.

Definition as_Button (c : Child) : option Button :=
  match c with ButtonEl b => Some b | _ => None end.

Definition as_Tab (c : Child) : option Tab :=
  match c with TabEl t => Some t | _ => None end.

(** The buttons and the tab strip, by their slot in the [<div>]. *)
Definition Save_button (r : Root) : option Button :=
  children_of r !! 0%nat ≫= as_Button.
Definition mode_button (r : Root) : option Button :=
  children_of r !! 1%nat ≫= as_Button.
Definition tab_strip (r : Root) : option Tab :=
  children_of r !! 2%nat ≫= as_Tab.

(** The [onClick] of a pane's menu item when it is the add control. *)
Definition add_control (p : Pane) : option (Handler unit) :=
  match menuItem p with
  | Menu_Item key onClick _ => if String.eqb key "add" then Some onClick else None
  | Shorthand _ _ => None
  end.

(** The text of a pane's menu item. *)
Definition menu_label (p : Pane) : option string :=
  match menuItem p with
  | Shorthand _ (span text) => Some text
  | _ => None
  end.

Definition menu_key (p : Pane) : string :=
  match menuItem p with
  | Shorthand key _ | Menu_Item key _ _ => key
  end.

(** What the pane shows when the toolkit calls its [render]. *)
Definition pane_body (this : Instance) (p : Pane) : option Element :=
  f ← Pane_render p; Some (f this).

(** Modelled from the spec: the toolkit's button widget is not part of the
    source; a disabled button ignores clicks, an enabled one runs its
    [onClick]. *)
Definition Button_click (b : Button) : Handler unit :=
  if Button_disabled b then hret tt else Button_onClick b.

Definition buttons (r : Root) : list Button := omap as_Button (children_of r).

(** The contract on [views]: every tab id has an entry. *)
Definition views_cover_tabs (p : Props) : Prop :=
  Forall (fun viewId => is_Some (views p !! viewId)) (tabs p).

(** Every tab id names something that [views[viewId]] finds: an entry of
    [views] or a property inherited from [Object.prototype]. *)
Definition views_resolve_tabs (p : Props) : Prop :=
  Forall (fun viewId => is_Some (views p !! viewId)
                        ∨ is_Some (Object_prototype_name viewId)) (tabs p).

(** The pane descriptor that lines 14-24 build for [viewId]. *)
Definition is_tab_pane (this : Instance) (viewId : string) (p : Pane) : Prop :=
  ∃ view, views (props this) !! viewId = Some view ∧
    p = {| menuItem := Shorthand viewId (span (name view +:+ " "));
           Pane_render := Some (fun this =>
             Tab_Pane (renderView (props this) viewId (editMode (state this)))) |}.

(** Line 7: the state of a new instance. *)
Definition initial_state : State := {| editMode := false |}.

(** A new instance, as React builds it for the props it is given. *)
Definition mount (p : Props) : Instance :=
  {| props := p; state := initial_state |}.

(** The instance after a re-render in which the parent passes [v] as
    [activeView] and leaves the other props alone. *)
Definition with_activeView (this : Instance) (v : value) : Instance :=
  {| props := {| tabs := tabs (props this);
                 views := views (props this);
                 activeView := v;
                 blank := blank (props this);
                 viewType := viewType (props this);
                 isModified := isModified (props this);
                 viewState := viewState (props this);
                 renderView := renderView (props this) |};
     state := state this |}.

(** [n] clicks on the mode button, each handled before the next: the
    instance they leave and the callback invocations they made. *)
Fixpoint mode_clicks (n : nat) (this : Instance) : Instance * list Call :=
  match n with
  | O => (this, [])
  | S n =>
      let (this, first) := dispatch mode_onClick this in
      let (final, rest) := mode_clicks n this in
      (final, first ++ rest)
  end.

End Component.

Arguments updateViews {ViewType} serialized.
Arguments SetState {ViewType} partial.
Arguments span {Renderable} text.
Arguments Icon {Renderable} iconName.
Arguments Shorthand {ViewType ViewState Renderable} key content.
Arguments Skip {ViewType ViewState Renderable}.
Arguments hret {ViewType ViewState Renderable A} a.
Arguments this_props {ViewType ViewState Renderable}.
Arguments this_state {ViewType ViewState Renderable}.
Arguments setState {ViewType ViewState Renderable} partial.
Arguments invoke {ViewType ViewState Renderable} c.
Arguments add_onClick {ViewType ViewState Renderable}.
Arguments Save_onClick {ViewType ViewState Renderable} JSON_stringify.
Arguments mode_onClick {ViewType ViewState Renderable}.
Arguments onTabChange {ViewType ViewState Renderable} activeIndex.
Arguments add_pane {ViewType ViewState Renderable}.

(** ** Sample inputs *)

(** [JSON.stringify] on booleans. *)
Definition stringify_bool (b : bool) : value :=
  Str (if b then "true" else "false").

(** [tabs=["a","b"]], [views={a:{name:"Alpha"},b:{name:"Beta"}}]. *)
Definition alpha_beta (active : value) (blank modified : bool)
  : Props string bool string :=
  {| tabs := ["a"; "b"]%string;
     views := {[ "a"%string := {| name := "Alpha" |};
                 "b"%string := {| name := "Beta" |} ]};
     activeView := active;
     blank := blank;
     viewType := "runs"%string;
     isModified := modified;
     viewState := true;
     renderView := fun viewId editing =>
       (viewId +:+ (if editing then " (editing)" else ""))%string |}.

(** A tab whose id is the empty string. *)
Definition empty_id : Props string bool string :=
  {| tabs := ["a"; ""]%string;
     views := {[ "a"%string := {| name := "Alpha" |};
                 ""%string := {| name := "Untitled" |} ]};
     activeView := undefined;
     blank := false;
     viewType := "runs"%string;
     isModified := false;
     viewState := false;
     renderView := fun viewId _ => viewId |}.

(** A tab with no entry in [views]. *)
Definition dangling : Props string bool string :=
  {| tabs := ["a"; "gone"]%string;
     views := {[ "a"%string := {| name := "Alpha" |} ]};
     activeView := undefined;
     blank := false;
     viewType := "runs"%string;
     isModified := false;
     viewState := false;
     renderView := fun viewId _ => viewId |}.

(** A tab whose id has no entry in [views] but names a property that
    every plain object inherits. *)
Definition inherited_id : Props string bool string :=
  {| tabs := ["a"; "constructor"]%string;
     views := {[ "a"%string := {| name := "Alpha" |} ]};
     activeView := undefined;
     blank := false;
     viewType := "runs"%string;
     isModified := false;
     viewState := false;
     renderView := fun viewId _ => viewId |}.

(** No tabs at all. *)
Definition no_tabs : Props string bool string :=
  {| tabs := [];
     views := ∅;
     activeView := Str "a";
     blank := false;
     viewType := "runs"%string;
     isModified := false;
     viewState := false;
     renderView := fun viewId _ => viewId |}.

(** The sample with a third view that no tab shows. *)
Definition alpha_beta_gamma : Props string bool string :=
  {| tabs := ["a"; "b"]%string;
     views := {[ "a"%string := {| name := "Alpha" |};
                 "b"%string := {| name := "Beta" |};
                 "c"%string := {| name := "Gamma" |} ]};
     activeView := undefined;
     blank := false;
     viewType := "runs"%string;
     isModified := false;
     viewState := true;
     renderView := fun viewId editing =>
       (viewId +:+ (if editing then " (editing)" else ""))%string |}.

Definition viewing {V S R} (p : Props V S R) : Instance V S R :=
  {| props := p; state := {| editMode := false |} |}.
Definition editing {V S R} (p : Props V S R) : Instance V S R :=
  {| props := p; state := {| editMode := true |} |}.

(** Every tab id of a sample has its entry in [views]. *)
Ltac covered := repeat constructor; eexists; vm_compute; reflexivity.

(** * Properties *)

Section Properties.

Context {ViewType ViewState Renderable : Type}.
Variable JSON_stringify : ViewState → value.

Implicit Types (this : Instance ViewType ViewState Renderable).
Implicit Types (p : Props ViewType ViewState Renderable).

(** *** [===] and [_.indexOf] *)

Lemma strict_eq_Str x v : strict_eq (Str x) v = true ↔ v = Str x.
Proof.
  destruct v as [| |n|s]; simpl; split; try congruence.
  - intros H. apply String.eqb_eq in H. congruence.
  - intros [= ->]. apply String.eqb_refl.
Qed.

Lemma strictIndexOf_found array s (i : nat) k :
  array !! i = Some s →
  (∀ j, (j < i)%nat → array !! j ≠ Some s) →
  strictIndexOf array (Str s) k = k + Z.of_nat i.
Proof.
  revert i k. induction array as [|x rest IH]; intros i k Hi Hfirst.
  - discriminate.
  - simpl. destruct i as [|i].
    + injection Hi as ->. rewrite String.eqb_refl. lia.
    + destruct (String.eqb x s) eqn:E.
      * apply String.eqb_eq in E. subst x.
        exfalso. apply (Hfirst 0%nat); [lia | reflexivity].
      * rewrite (IH i (k + 1)); [lia | exact Hi |].
        intros j Hj. apply (Hfirst (S j)). lia.
Qed.

Lemma strictIndexOf_absent array v k :
  (∀ x, x ∈ array → v ≠ Str x) → strictIndexOf array v k = -1.
Proof.
  revert k. induction array as [|x rest IH]; intros k Habs; [reflexivity|].
  cbn [strictIndexOf]. destruct (strict_eq (Str x) v) eqn:E.
  - apply strict_eq_Str in E. exfalso. apply (Habs x); [left | exact E].
  - apply IH. intros y Hy. apply Habs. by right.
Qed.

Lemma indexOf_found array s (i : nat) :
  array !! i = Some s →
  (∀ j, (j < i)%nat → array !! j ≠ Some s) →
  indexOf array (Str s) = Z.of_nat i.
Proof.
  intros Hi Hfirst. unfold indexOf.
  destruct array as [|x rest]; [discriminate|]. cbn [length Nat.eqb].
  by rewrite (strictIndexOf_found _ 0 Hi Hfirst).
Qed.

Lemma indexOf_absent array v :
  (∀ x, x ∈ array → v ≠ Str x) → indexOf array v = -1.
Proof.
  intros Habs. unfold indexOf.
  destruct (length array =? 0)%nat; [reflexivity|].
  by apply strictIndexOf_absent.
Qed.

(** C1. The computed active index is the position of [activeView] in
    [tabs] (its first occurrence) when [activeView] is set and present
    there, and 0 when [activeView] is unset or not in [tabs]. *)
Theorem activeIndex_position this :
  (∀ s (i : nat),
      activeView (props this) = Str s →
      tabs (props this) !! i = Some s →
      (∀ j, (j < i)%nat → tabs (props this) !! j ≠ Some s) →
      activeIndex this = Z.of_nat i)
  ∧ (isNil (activeView (props this)) = true
     ∨ (∀ s, activeView (props this) = Str s → s ∉ tabs (props this)) →
     activeIndex this = 0).
Proof.
  unfold activeIndex. split.
  - intros s i Hact Hi Hfirst. rewrite Hact. simpl.
    rewrite (indexOf_found _ Hi Hfirst).
    destruct (Z.eqb_spec (Z.of_nat i) (-1)); lia.
  - intros [Hnil | Habs].
    + by rewrite Hnil.
    + destruct (isNil (activeView (props this))); [reflexivity|]. simpl.
      rewrite indexOf_absent; [reflexivity|].
      intros x Hx Heq. exact (Habs x Heq Hx).
Qed.

(** *** The panes built from [tabs] *)

Lemma tab_pane_OK this viewId view :
  views (props this) !! viewId = Some view →
  tab_pane this viewId =
    OK {| menuItem := Shorthand viewId (span (name view +:+ " "));
          Pane_render := Some (fun this =>
            Tab_Pane (renderView (props this) viewId (editMode (state this)))) |}.
Proof. intros H. unfold tab_pane, member. by rewrite H. Qed.

Lemma tab_panes_OK this (ids : list string) :
  Forall (fun viewId => is_Some (views (props this) !! viewId)) ids →
  ∃ ps, Array_map (tab_pane this) ids = OK ps ∧ Forall2 (is_tab_pane this) ids ps.
Proof.
  induction 1 as [|viewId ids [view Hview] _ (ps & Hps & Hall)].
  - exists []. split; [reflexivity | constructor].
  - eexists (_ :: ps). cbn [Array_map].
    rewrite (tab_pane_OK _ _ Hview), Hps. split; [reflexivity|].
    constructor; [|exact Hall]. by exists view.
Qed.

Lemma tab_pane_Throw this viewId :
  views (props this) !! viewId = None →
  Object_prototype_name viewId = None →
  tab_pane this viewId = Throw TypeError.
Proof. intros Hown Hinherited. unfold tab_pane, member. by rewrite Hown, Hinherited. Qed.

Lemma tab_panes_Throw this (ids : list string) viewId :
  viewId ∈ ids →
  views (props this) !! viewId = None →
  Object_prototype_name viewId = None →
  Array_map (tab_pane this) ids = Throw TypeError.
Proof.
  intros Hin Hown Hinherited.
  induction ids as [|x rest IH]; [by apply elem_of_nil in Hin|].
  cbn [Array_map]. destruct (tab_pane this x) as [pane | []] eqn:Hx; [|reflexivity].
  apply elem_of_cons in Hin as [-> | Hin].
  - rewrite (tab_pane_Throw _ _ Hown Hinherited) in Hx. discriminate.
  - by rewrite (IH Hin).
Qed.

Lemma is_tab_pane_no_add_control this viewId pane :
  is_tab_pane this viewId pane → add_control pane = None.
Proof. by intros (view & _ & ->). Qed.

Lemma tab_panes_no_add_control this ids ps :
  Forall2 (is_tab_pane this) ids ps → Forall (fun pane => add_control pane = None) ps.
Proof.
  induction 1; constructor; eauto using is_tab_pane_no_add_control.
Qed.

(** With every tab id in [views], the local [panes] is the panes of the
    tabs, followed in edit mode by the add control. *)
Lemma panes_OK this :
  views_cover_tabs (props this) →
  ∃ real,
    Forall2 (is_tab_pane this) (tabs (props this)) real ∧
    panes this = OK (if editMode (state this) then real ++ [add_pane] else real).
Proof.
  intros Hcover. destruct (tab_panes_OK this Hcover) as (real & Hreal & Hall).
  exists real. split; [exact Hall|]. unfold panes. by rewrite Hreal.
Qed.

(** [render] returns the tree below as soon as [panes] is built. *)
Lemma render_panes this ps :
  panes this = OK ps →
  render JSON_stringify this = OK (div [
    if editMode (state this) then
      ButtonEl {| Button_color := Some "green"%string;
                  Button_floated := "right";
                  Button_content := "Save Changes";
                  Button_icon := None;
                  Button_disabled := negb (isModified (props this));
                  Button_onClick := Save_onClick JSON_stringify |}
    else Skip;
    ButtonEl {| Button_color := None;
                Button_floated := "right";
                Button_content :=
                  if editMode (state this) then "View Charts" else "Edit Charts";
                Button_icon :=
                  Some (if editMode (state this) then "unhide" else "configure")%string;
                Button_disabled := false;
                Button_onClick := mode_onClick |};
    if negb (blank (props this)) || editMode (state this) then
      TabEl {| Tab_panes := ps;
               Tab_activeIndex := activeIndex this;
               Tab_onTabChange := onTabChange |}
    else Skip ]).
Proof. intros Hpanes. unfold render. by rewrite Hpanes. Qed.

Lemma render_OK this :
  views_cover_tabs (props this) →
  ∃ real,
    Forall2 (is_tab_pane this) (tabs (props this)) real ∧
    panes this = OK (if editMode (state this) then real ++ [add_pane] else real) ∧
    render JSON_stringify this = OK (div [
      if editMode (state this) then
        ButtonEl {| Button_color := Some "green"%string;
                    Button_floated := "right";
                    Button_content := "Save Changes";
                    Button_icon := None;
                    Button_disabled := negb (isModified (props this));
                    Button_onClick := Save_onClick JSON_stringify |}
      else Skip;
      ButtonEl {| Button_color := None;
                  Button_floated := "right";
                  Button_content :=
                    if editMode (state this) then "View Charts" else "Edit Charts";
                  Button_icon :=
                    Some (if editMode (state this) then "unhide" else "configure")%string;
                  Button_disabled := false;
                  Button_onClick := mode_onClick |};
      if negb (blank (props this)) || editMode (state this) then
        TabEl {| Tab_panes :=
                   if editMode (state this) then real ++ [add_pane] else real;
                 Tab_activeIndex := activeIndex this;
                 Tab_onTabChange := onTabChange |}
      else Skip ]).
Proof.
  intros Hcover. destruct (panes_OK this Hcover) as (real & Hall & Hpanes).
  exists real. split; [exact Hall|]. split; [exact Hpanes|].
  exact (render_panes this Hpanes).
Qed.

(** *** Dispatching the handlers *)

Lemma dispatch_add_onClick this :
  dispatch add_onClick this
  = (this, [addView (viewType (props this)) "New View" []]).
Proof. by destruct this as [p [em]]. Qed.

Lemma dispatch_Save_onClick this :
  dispatch (Save_onClick JSON_stringify) this
  = ({| props := props this; state := {| editMode := false |} |},
     [updateViews (JSON_stringify (viewState (props this)))]).
Proof. reflexivity. Qed.

Lemma dispatch_mode_onClick this :
  dispatch mode_onClick this
  = ({| props := props this;
        state := {| editMode := negb (editMode (state this)) |} |}, []).
Proof. reflexivity. Qed.

Lemma dispatch_onTabChange this i :
  dispatch (onTabChange i) this
  = (this, [setActiveView (viewType (props this))
              (JS.or (JS.get (tabs (props this)) i) (Num i))]).
Proof. by destruct this as [p [em]]. Qed.

Lemma dispatch_nothing this : dispatch (hret tt) this = (this, []).
Proof. by destruct this as [p [em]]. Qed.

Lemma get_past_end (array : list string) i :
  Z.of_nat (length array) ≤ i → JS.get array i = undefined.
Proof.
  intros Hi. unfold JS.get. destruct (i <? 0) eqn:E; [reflexivity|].
  rewrite lookup_ge_None_2; [reflexivity | lia].
Qed.

Lemma get_in_range (array : list string) (i : nat) s :
  array !! i = Some s → JS.get array (Z.of_nat i) = Str s.
Proof.
  intros Hi. unfold JS.get.
  destruct (Z.ltb_spec (Z.of_nat i) 0); [lia|]. by rewrite Nat2Z.id, Hi.
Qed.

(** *** The claims about [render] and its handlers *)

Unset Implicit Arguments.

(** C2. In edit mode the pane list is the panes of the real tabs followed
    by exactly one add-control pane, and the Save Changes button is
    rendered; outside edit mode the pane list is the panes of the real
    tabs alone, none of which is an add control, and no Save Changes
    button is rendered. *)
Theorem editMode_adds_pane_and_Save this :
  views_cover_tabs (props this) →
  ∃ real root,
    Forall2 (is_tab_pane this) (tabs (props this)) real ∧
    Forall (fun pane => add_control pane = None) real ∧
    render JSON_stringify this = OK root ∧
    if editMode (state this) then
      panes this = OK (real ++ [add_pane]) ∧
      is_Some (add_control (@add_pane ViewType ViewState Renderable)) ∧
      ∃ b, Save_button root = Some b ∧ Button_content b = "Save Changes"%string
    else
      panes this = OK real ∧
      Save_button root = None ∧
      Forall (fun b => Button_content b ≠ "Save Changes"%string) (buttons root).
Proof.
  intros Hcover.
  destruct (render_OK this Hcover) as (real & Hall & Hpanes & Hrender).
  exists real. eexists. split; [exact Hall|].
  split; [exact (tab_panes_no_add_control Hall)|].
  split; [exact Hrender|].
  destruct (editMode (state this)).
  - split; [exact Hpanes|]. split; [by eexists|]. by eexists.
  - split; [exact Hpanes|]. split; [reflexivity|].
    destruct (blank (props this)); cbn; by repeat constructor.
Qed.

(** C3. In edit mode the Save Changes button is disabled exactly when
    [isModified] is false. Clicking it while [isModified] is true calls
    [updateViews] once, with [JSON.stringify(viewState)], calls nothing
    else, and leaves [editMode] false; clicking it while [isModified] is
    false calls nothing and leaves the state as it was. *)
Theorem Save_click this :
  views_cover_tabs (props this) →
  editMode (state this) = true →
  ∃ root b,
    render JSON_stringify this = OK root ∧
    Save_button root = Some b ∧
    Button_disabled b = negb (isModified (props this)) ∧
    Button_onClick b = Save_onClick JSON_stringify ∧
    dispatch (Button_click b) this =
      if isModified (props this) then
        ({| props := props this; state := {| editMode := false |} |},
         [updateViews (JSON_stringify (viewState (props this)))])
      else (this, []).
Proof.
  intros Hcover Hedit.
  destruct (render_OK this Hcover) as (real & _ & _ & Hrender).
  rewrite Hedit in Hrender. do 2 eexists.
  split; [exact Hrender|]. split; [reflexivity|]. split; [reflexivity|].
  split; [reflexivity|].
  unfold Button_click. cbn [Button_disabled Button_onClick].
  destruct (isModified (props this)); cbn [negb].
  - apply dispatch_Save_onClick.
  - apply dispatch_nothing.
Qed.

(** C4. Clicking the mode button negates [editMode] and calls no parent
    callback. *)
Theorem mode_click this :
  views_cover_tabs (props this) →
  ∃ root b,
    render JSON_stringify this = OK root ∧
    mode_button root = Some b ∧
    dispatch (Button_click b) this =
      ({| props := props this;
          state := {| editMode := negb (editMode (state this)) |} |}, []).
Proof.
  intros Hcover.
  destruct (render_OK this Hcover) as (real & _ & _ & Hrender).
  do 2 eexists. split; [exact Hrender|]. split; [reflexivity|].
  apply dispatch_mode_onClick.
Qed.

(** C5. With [blank] true and [editMode] false the root has no tab strip
    at all; in every other combination the tab strip is rendered, with
    the panes and the active index computed by [render]. *)
Theorem blank_omits_tab_strip this :
  views_cover_tabs (props this) →
  ∃ root ps,
    render JSON_stringify this = OK root ∧
    panes this = OK ps ∧
    if blank (props this) && negb (editMode (state this)) then
      tab_strip root = None ∧
      Forall (fun child => as_Tab child = None) (children_of root)
    else
      tab_strip root = Some {| Tab_panes := ps;
                               Tab_activeIndex := activeIndex this;
                               Tab_onTabChange := onTabChange |}.
Proof.
  intros Hcover.
  destruct (render_OK this Hcover) as (real & _ & Hpanes & Hrender).
  do 2 eexists. split; [exact Hrender|]. split; [exact Hpanes|].
  destruct (blank (props this)), (editMode (state this)); cbn;
    first [reflexivity | split; [reflexivity | by repeat constructor]].
Qed.

(** C6. A tab change reporting index [i] calls [setActiveView] once, with
    [viewType] and the id that [tabs] holds at [i] when that id is truthy
    (a non-empty string), and with the number [i] when it is falsy: when
    the id at [i] is the empty string, and when [tabs] has nothing at [i],
    in particular whenever [i] is at or past the end of [tabs]. *)
Theorem tab_change_calls_setActiveView this (i : Z) :
  views_cover_tabs (props this) →
  blank (props this) = false ∨ editMode (state this) = true →
  ∃ root strip arg,
    render JSON_stringify this = OK root ∧
    tab_strip root = Some strip ∧
    dispatch (Tab_onTabChange strip i) this
      = (this, [setActiveView (viewType (props this)) arg]) ∧
    (∀ (k : nat) viewId,
        i = Z.of_nat k → tabs (props this) !! k = Some viewId →
        viewId ≠ ""%string → arg = Str viewId) ∧
    (∀ k : nat,
        i = Z.of_nat k → tabs (props this) !! k = Some ""%string →
        arg = Num i) ∧
    (Z.of_nat (length (tabs (props this))) ≤ i → arg = Num i) ∧
    (i < 0 → arg = Num i).
Proof.
  intros Hcover Hshown.
  destruct (render_OK this Hcover) as (real & _ & _ & Hrender).
  assert (Hcond : negb (blank (props this)) || editMode (state this) = true).
  { destruct Hshown as [-> | ->]; [reflexivity | apply orb_true_r]. }
  rewrite Hcond in Hrender. do 3 eexists.
  split; [exact Hrender|]. split; [reflexivity|].
  split; [apply dispatch_onTabChange|]. unfold JS.or.
  split; [|split; [|split]].
  - intros k viewId -> Hk Hne. rewrite (get_in_range _ _ Hk). cbn [truthy].
    apply String.eqb_neq in Hne. by rewrite Hne.
  - intros k -> Hk. by rewrite (get_in_range _ _ Hk).
  - intros Hpast. by rewrite (get_past_end _ Hpast).
  - intros Hneg. unfold JS.get. apply Z.ltb_lt in Hneg. by rewrite Hneg.
Qed.

(** C7. In edit mode the last pane is the add control, and running its
    [onClick] calls [addView(viewType, "New View", [])] once and nothing
    else; outside edit mode no pane is an add control. *)
Theorem add_control_calls_addView this :
  views_cover_tabs (props this) →
  ∃ ps,
    panes this = OK ps ∧
    if editMode (state this) then
      ∃ real add onClick,
        ps = real ++ [add] ∧
        Forall (fun pane => add_control pane = None) real ∧
        add_control add = Some onClick ∧
        dispatch onClick this
          = (this, [addView (viewType (props this)) "New View" []])
    else Forall (fun pane => add_control pane = None) ps.
Proof.
  intros Hcover.
  destruct (panes_OK this Hcover) as (real & Hall & Hpanes).
  eexists. split; [exact Hpanes|].
  pose proof (tab_panes_no_add_control Hall) as Hnone.
  destruct (editMode (state this)); [|exact Hnone].
  exists real, add_pane, add_onClick.
  split; [reflexivity|]. split; [exact Hnone|]. split; [reflexivity|].
  apply dispatch_add_onClick.
Qed.

(** C8. When every id of [tabs] has an entry in [views], [render] builds
    one pane per tab id, in the order of [tabs]; the pane for [viewId] has
    a menu item keyed [viewId] whose label is the view's name followed by
    one space, and its body is [renderView(viewId, editMode)]. *)
Theorem one_pane_per_tab this :
  views_cover_tabs (props this) →
  ∃ real,
    Array_map (tab_pane this) (tabs (props this)) = OK real ∧
    panes this = OK (real ++ if editMode (state this) then [add_pane] else []) ∧
    Forall2 (fun viewId pane =>
               ∃ view,
                 views (props this) !! viewId = Some view ∧
                 menu_key pane = viewId ∧
                 menu_label pane = Some (name view +:+ " ") ∧
                 pane_body this pane =
                   Some (Tab_Pane (renderView (props this) viewId
                                     (editMode (state this)))))
            (tabs (props this)) real.
Proof.
  intros Hcover. destruct (tab_panes_OK this Hcover) as (real & Hreal & Hall).
  exists real. split; [exact Hreal|]. split.
  - unfold panes. rewrite Hreal. cbn.
    destruct (editMode (state this)); [reflexivity | by rewrite app_nil_r].
  - eapply Forall2_impl; [exact Hall|].
    intros viewId pane (view & Hview & ->). by exists view.
Qed.

(** C9, amended. When some id of [tabs] has no entry in [views] and names
    no property inherited from [Object.prototype], building the panes
    throws a TypeError, and [render] lets it propagate. *)
Theorem missing_view_throws this viewId :
  viewId ∈ tabs (props this) →
  views (props this) !! viewId = None →
  Object_prototype_name viewId = None →
  panes this = Throw TypeError ∧ render JSON_stringify this = Throw TypeError.
Proof.
  intros Hin Hown Hinherited.
  assert (Hpanes : panes this = Throw TypeError).
  { unfold panes. by rewrite (tab_panes_Throw _ Hin Hown Hinherited). }
  split; [exact Hpanes|]. unfold render. by rewrite Hpanes.
Qed.

(** C10. A tab change at an in-range index [i] whose tab id is a falsy
    string calls [setActiveView] with the number [i], not with the id. *)
Theorem falsy_tab_id_falls_back_to_index this (i : nat) viewId :
  views_cover_tabs (props this) →
  blank (props this) = false ∨ editMode (state this) = true →
  tabs (props this) !! i = Some viewId →
  truthy (Str viewId) = false →
  ∃ root strip,
    render JSON_stringify this = OK root ∧
    tab_strip root = Some strip ∧
    dispatch (Tab_onTabChange strip (Z.of_nat i)) this
      = (this, [setActiveView (viewType (props this)) (Num (Z.of_nat i))]).
Proof.
  intros Hcover Hshown Hi Hfalsy.
  destruct (render_OK this Hcover) as (real & _ & _ & Hrender).
  assert (Hcond : negb (blank (props this)) || editMode (state this) = true).
  { destruct Hshown as [-> | ->]; [reflexivity | apply orb_true_r]. }
  rewrite Hcond in Hrender. do 2 eexists.
  split; [exact Hrender|]. split; [reflexivity|].
  cbn [Tab_onTabChange]. rewrite dispatch_onTabChange.
  unfold JS.or. by rewrite (get_in_range _ _ Hi), Hfalsy.
Qed.

End Properties.

(** * The properties at the sample inputs *)

(** [activeView="b"] selects index 1; [activeView="z"] selects index 0. *)
Lemma activeIndex_position_witness :
  activeIndex (viewing (alpha_beta (Str "b") false false)) = 1 ∧
  activeIndex (viewing (alpha_beta (Str "z") false false)) = 0.
Proof.
  split.
  - apply (proj1 (activeIndex_position _) "b"%string 1%nat);
      [reflexivity | reflexivity |].
    intros j Hj. destruct j; [discriminate | lia].
  - apply (proj2 (activeIndex_position _)). right.
    intros s [= <-] Hin.
    repeat (apply elem_of_cons in Hin as [Hin | Hin]; [discriminate|]).
    by apply elem_of_nil in Hin.
Defined.

Lemma editMode_adds_pane_and_Save_witness :
  ∃ root b,
    render stringify_bool (editing (alpha_beta undefined false true)) = OK root ∧
    Save_button root = Some b ∧
    Button_content b = "Save Changes"%string.
Proof.
  destruct (editMode_adds_pane_and_Save stringify_bool
              (editing (alpha_beta undefined false true)))
    as (real & root & _ & _ & Hrender & _ & _ & b & Hb & Hcontent);
    [covered|].
  by exists root, b.
Defined.

Lemma Save_click_witness :
  ∃ root b,
    render stringify_bool (editing (alpha_beta undefined false true)) = OK root ∧
    Save_button root = Some b ∧
    dispatch (Button_click b) (editing (alpha_beta undefined false true))
      = (viewing (alpha_beta undefined false true), [updateViews (Str "true")]).
Proof.
  destruct (Save_click stringify_bool
              (editing (alpha_beta undefined false true)))
    as (root & b & Hrender & Hb & _ & _ & Hclick);
    [covered | reflexivity |].
  by exists root, b.
Defined.

Lemma mode_click_witness :
  ∃ root b,
    render stringify_bool (viewing (alpha_beta undefined false false)) = OK root ∧
    mode_button root = Some b ∧
    dispatch (Button_click b) (viewing (alpha_beta undefined false false))
      = (editing (alpha_beta undefined false false), []).
Proof.
  destruct (mode_click stringify_bool
              (viewing (alpha_beta undefined false false)))
    as (root & b & Hrender & Hb & Hclick);
    [covered|].
  by exists root, b.
Defined.

Lemma blank_omits_tab_strip_witness :
  ∃ root,
    render stringify_bool (viewing (alpha_beta undefined true false)) = OK root ∧
    tab_strip root = None.
Proof.
  destruct (blank_omits_tab_strip stringify_bool
              (viewing (alpha_beta undefined true false)))
    as (root & ps & Hrender & _ & Hnone & _);
    [covered|].
  by exists root.
Defined.

(** Edit mode on the two-tab sample: a change to index 1 passes the id
    "b", a change to index 2, the add control, passes the number 2. *)
Lemma tab_change_calls_setActiveView_witness :
  ∃ root strip,
    render stringify_bool (editing (alpha_beta undefined false false)) = OK root ∧
    tab_strip root = Some strip ∧
    dispatch (Tab_onTabChange strip 1) (editing (alpha_beta undefined false false))
      = (editing (alpha_beta undefined false false),
         [setActiveView "runs"%string (Str "b")]) ∧
    dispatch (Tab_onTabChange strip 2) (editing (alpha_beta undefined false false))
      = (editing (alpha_beta undefined false false),
         [setActiveView "runs"%string (Num 2)]).
Proof.
  destruct (tab_change_calls_setActiveView stringify_bool
              (editing (alpha_beta undefined false false)) 1)
    as (root & strip & arg & Hrender & Hstrip & Hcall & Hid & _);
    [covered | by right |].
  destruct (tab_change_calls_setActiveView stringify_bool
              (editing (alpha_beta undefined false false)) 2)
    as (root' & strip' & arg' & Hrender' & Hstrip' & Hcall' & _ & _ & Hpast & _);
    [covered | by right |].
  rewrite Hrender in Hrender'. injection Hrender' as <-.
  rewrite Hstrip in Hstrip'. injection Hstrip' as <-.
  exists root, strip. split; [exact Hrender|]. split; [exact Hstrip|].
  rewrite (Hid 1%nat "b"%string) in Hcall; [|reflexivity|reflexivity|discriminate].
  rewrite Hpast in Hcall'; [|simpl; lia].
  by split.
Defined.

Lemma add_control_calls_addView_witness :
  ∃ real add onClick,
    panes (editing (alpha_beta undefined false false)) = OK (real ++ [add]) ∧
    add_control add = Some onClick ∧
    dispatch onClick (editing (alpha_beta undefined false false))
      = (editing (alpha_beta undefined false false),
         [addView "runs"%string "New View" []]).
Proof.
  destruct (add_control_calls_addView
              (editing (alpha_beta undefined false false)))
    as (ps & Hpanes & real & add & onClick & -> & _ & Hadd & Hcall);
    [covered|].
  by exists real, add, onClick.
Defined.

(** The menu labels of the sample are "Alpha " and "Beta ". *)
Lemma one_pane_per_tab_witness :
  ∃ real,
    panes (viewing (alpha_beta (Str "b") false false)) = OK real ∧
    menu_label <$> real = [Some "Alpha "; Some "Beta "]%string.
Proof.
  destruct (one_pane_per_tab
              (viewing (alpha_beta (Str "b") false false)))
    as (real & Hreal & Hpanes & _);
    [covered|].
  exists real. injection Hreal as <-. split; [|reflexivity].
  rewrite Hpanes. reflexivity.
Defined.

Lemma missing_view_throws_witness :
  panes (viewing dangling) = Throw TypeError ∧
  render stringify_bool (viewing dangling) = Throw TypeError.
Proof.
  apply (missing_view_throws stringify_bool (viewing dangling) "gone"%string).
  - repeat constructor.
  - vm_compute. reflexivity.
  - vm_compute. reflexivity.
Defined.

(** C9, counterexample. The id "constructor" has no entry in the [views]
    of [inherited_id], yet [render] returns, and the pane of that tab is
    labelled after the inherited function [Object]. *)
Lemma missing_view_inherited_renders :
  "constructor"%string ∈ tabs (props (viewing inherited_id)) ∧
  views (props (viewing inherited_id)) !! "constructor"%string = None ∧
  (∃ root, render stringify_bool (viewing inherited_id) = OK root) ∧
  (∃ real, panes (viewing inherited_id) = OK real ∧
           menu_label <$> real = [Some "Alpha "; Some "Object "]%string).
Proof.
  split; [repeat constructor|]. split; [vm_compute; reflexivity|].
  split; eexists; [reflexivity | split; reflexivity].
Qed.

(** The second tab of [empty_id] has the id "": a change to it reports 1. *)
Lemma falsy_tab_id_falls_back_to_index_witness :
  ∃ root strip,
    render stringify_bool (viewing empty_id) = OK root ∧
    tab_strip root = Some strip ∧
    dispatch (Tab_onTabChange strip 1) (viewing empty_id)
      = (viewing empty_id, [setActiveView "runs"%string (Num 1)]).
Proof.
  destruct (falsy_tab_id_falls_back_to_index stringify_bool
              (viewing empty_id) 1%nat ""%string)
    as (root & strip & Hrender & Hstrip & Hcall);
    [covered | by left | reflexivity | reflexivity |].
  by exists root, strip.
Defined.


(** * Further properties of [render] and its handlers *)

Section Further.

Context {ViewType ViewState Renderable : Type}.
Variable JSON_stringify : ViewState → value.

Implicit Types (this : Instance ViewType ViewState Renderable).
Implicit Types (p : Props ViewType ViewState Renderable).

Unset Implicit Arguments.

(** *** What [_.indexOf] returns *)

Lemma strict_eq_Str_false x v : strict_eq (Str x) v = false → v ≠ Str x.
Proof.
  intros Hfalse Heq. apply strict_eq_Str in Heq. congruence.
Qed.

(** Either no element is [===] to [v] and the result is -1, or [v] is a
    string and the result is the offset of its first occurrence. *)
Lemma strictIndexOf_cases (array : list string) v k :
  (strictIndexOf array v k = -1 ∧ ∀ x, x ∈ array → v ≠ Str x)
  ∨ (∃ (i : nat) s,
        strictIndexOf array v k = k + Z.of_nat i ∧ v = Str s ∧
        array !! i = Some s ∧ ∀ j, (j < i)%nat → array !! j ≠ Some s).
Proof.
  revert k. induction array as [|x rest IH]; intros k.
  - left. split; [reflexivity|]. intros x Hx. by apply elem_of_nil in Hx.
  - cbn [strictIndexOf]. destruct (strict_eq (Str x) v) eqn:E.
    + right. exists 0%nat, x. apply strict_eq_Str in E.
      split; [lia|]. split; [exact E|]. split; [reflexivity|]. lia.
    + apply strict_eq_Str_false in E.
      destruct (IH (k + 1)) as [[Hnone Habs] | (i & s & Hfound & Hv & Hi & Hfirst)].
      * left. split; [exact Hnone|].
        intros y Hy. apply elem_of_cons in Hy as [-> | Hy]; [exact E | by apply Habs].
      * right. exists (S i), s. split; [lia|]. split; [exact Hv|].
        split; [exact Hi|]. intros [|j] Hj.
        -- cbn. congruence.
        -- apply Hfirst. lia.
Qed.

Lemma indexOf_cases (array : list string) v :
  (indexOf array v = -1 ∧ ∀ x, x ∈ array → v ≠ Str x)
  ∨ (∃ (i : nat) s,
        indexOf array v = Z.of_nat i ∧ v = Str s ∧
        array !! i = Some s ∧ ∀ j, (j < i)%nat → array !! j ≠ Some s).
Proof.
  unfold indexOf. destruct array as [|x rest].
  - left. split; [reflexivity|]. intros x Hx. by apply elem_of_nil in Hx.
  - cbn [length Nat.eqb]. exact (strictIndexOf_cases (x :: rest) v 0).
Qed.

Lemma activeIndex_cases this :
  (activeIndex this = 0 ∧
   (isNil (activeView (props this)) = true
    ∨ ∀ x, x ∈ tabs (props this) → activeView (props this) ≠ Str x))
  ∨ (∃ (i : nat) s,
        activeIndex this = Z.of_nat i ∧ activeView (props this) = Str s ∧
        tabs (props this) !! i = Some s ∧
        ∀ j, (j < i)%nat → tabs (props this) !! j ≠ Some s).
Proof.
  unfold activeIndex. destruct (isNil (activeView (props this))) eqn:Hnil.
  - left. split; [reflexivity | by left].
  - cbn [negb].
    destruct (indexOf_cases (tabs (props this)) (activeView (props this)))
      as [[-> Habs] | (i & s & -> & Hv & Hi & Hfirst)].
    + left. split; [reflexivity | by right].
    + right. exists i, s. destruct (Z.eqb_spec (Z.of_nat i) (-1)); [lia|].
      by repeat split.
Qed.

(** X2. The computed active index is never negative, and whenever there
    is at least one tab it is below the number of tabs: it indexes a real
    tab, never the add control. *)
Theorem activeIndex_in_range this :
  0 ≤ activeIndex this ∧
  (tabs (props this) ≠ [] →
   activeIndex this < Z.of_nat (length (tabs (props this)))).
Proof.
  destruct (activeIndex_cases this) as [[-> _] | (i & s & -> & _ & Hi & _)].
  - split; [lia|]. intros Hne. destruct (tabs (props this)); [done | cbn; lia].
  - split; [lia|]. intros _. apply lookup_lt_Some in Hi. lia.
Qed.

(** *** When [render] returns *)

Lemma tab_pane_resolved this viewId :
  is_Some (views (props this) !! viewId) ∨ is_Some (Object_prototype_name viewId) →
  ∃ pane, tab_pane this viewId = OK pane.
Proof.
  unfold tab_pane, member. intros [[view Hown] | [inherited Hinherited]].
  - rewrite Hown. by eexists.
  - destruct (views (props this) !! viewId); [by eexists|].
    rewrite Hinherited. by eexists.
Qed.

Lemma tab_panes_resolved this (ids : list string) :
  Forall (fun viewId => is_Some (views (props this) !! viewId)
                        ∨ is_Some (Object_prototype_name viewId)) ids →
  ∃ ps, Array_map (tab_pane this) ids = OK ps.
Proof.
  induction 1 as [|viewId ids Hfound _ [ps Hps]]; [by eexists|].
  destruct (tab_pane_resolved this viewId Hfound) as [pane Hpane].
  exists (pane :: ps). cbn [Array_map]. by rewrite Hpane, Hps.
Qed.

(** X1. [render] returns a tree exactly when every id of [tabs] has an
    entry in [views] or names a property inherited from
    [Object.prototype], and throws a TypeError exactly when some id has
    neither, whatever [blank] and [editMode] are. *)
Theorem render_returns_iff_views_resolve_tabs this :
  ((∃ root, render JSON_stringify this = OK root)
   ↔ views_resolve_tabs (props this))
  ∧ (render JSON_stringify this = Throw TypeError
     ↔ ¬ views_resolve_tabs (props this)).
Proof.
  destruct (decide (Forall (fun viewId => is_Some (views (props this) !! viewId)
                                          ∨ is_Some (Object_prototype_name viewId))
                      (tabs (props this)))) as [Hfound | Hmissing].
  - destruct (tab_panes_resolved this _ Hfound) as [ps Hps].
    assert (Hpanes : panes this
              = OK (if editMode (state this) then ps ++ [add_pane] else ps)).
    { unfold panes. by rewrite Hps. }
    pose proof (render_panes JSON_stringify this Hpanes) as Hrender.
    split; split.
    + intros _. exact Hfound.
    + intros _. eexists. exact Hrender.
    + intros Hthrow. rewrite Hrender in Hthrow. discriminate.
    + intros Hnot. by destruct Hnot.
  - assert (Hthrow : render JSON_stringify this = Throw TypeError).
    { apply not_Forall_Exists in Hmissing; [|apply _].
      apply Exists_exists in Hmissing as (viewId & Hin & Hnone).
      assert (Hown : views (props this) !! viewId = None).
      { apply eq_None_not_Some. intros Hsome. apply Hnone. by left. }
      assert (Hinherited : Object_prototype_name viewId = None).
      { apply eq_None_not_Some. intros Hsome. apply Hnone. by right. }
      unfold render, panes. by rewrite (tab_panes_Throw this Hin Hown Hinherited). }
    split; split.
    + intros [root Hroot]. rewrite Hthrow in Hroot. discriminate.
    + intros Hfound. by destruct Hmissing.
    + intros _. exact Hmissing.
    + intros _. exact Hthrow.
Qed.

(** *** The active pane *)

Lemma panes_lookup_real this (real : list (Pane ViewType ViewState Renderable))
    (k : nat) viewId :
  Forall2 (is_tab_pane this) (tabs (props this)) real →
  tabs (props this) !! k = Some viewId →
  ∃ pane,
    (if editMode (state this) then real ++ [add_pane] else real) !! k = Some pane ∧
    is_tab_pane this viewId pane.
Proof.
  intros Hall Hk.
  destruct (Forall2_lookup_l _ _ _ _ _ Hall Hk) as (pane & Hpane & Htab).
  exists pane. split; [|exact Htab].
  destruct (editMode (state this)); [|exact Hpane].
  by apply lookup_app_l_Some.
Qed.

(** X3. With at least one tab, the pane at the computed active index is
    the pane of a real tab: its key is the tab id at that index, its body is
    [renderView] of that id and the current [editMode], and that id is
    [activeView] whenever [activeView] is one of the tabs. *)
Theorem active_pane_is_active_view this :
  views_cover_tabs (props this) →
  tabs (props this) ≠ [] →
  ∃ ps viewId pane,
    panes this = OK ps ∧
    tabs (props this) !! Z.to_nat (activeIndex this) = Some viewId ∧
    ps !! Z.to_nat (activeIndex this) = Some pane ∧
    menu_key pane = viewId ∧
    pane_body this pane =
      Some (Tab_Pane (renderView (props this) viewId (editMode (state this)))) ∧
    add_control pane = None ∧
    (∀ s, activeView (props this) = Str s → s ∈ tabs (props this) → viewId = s).
Proof.
  intros Hcover Hne.
  destruct (panes_OK this Hcover) as (real & Hall & Hpanes).
  assert (Hat : ∃ viewId,
    tabs (props this) !! Z.to_nat (activeIndex this) = Some viewId ∧
    ∀ s, activeView (props this) = Str s → s ∈ tabs (props this) → viewId = s).
  { destruct (activeIndex_cases this)
      as [[-> Hwhy] | (i & s & -> & Hv & Hi & _)].
    - destruct (tabs (props this)) as [|x rest] eqn:Htabs; [done|].
      exists x. split; [reflexivity|]. intros s Hs Hin.
      destruct Hwhy as [Hnil | Habs].
      + rewrite Hs in Hnil. discriminate.
      + by destruct (Habs s Hin).
    - exists s. rewrite Nat2Z.id. split; [exact Hi|]. congruence. }
  destruct Hat as (viewId & Hid & Hactive).
  destruct (panes_lookup_real this real _ viewId Hall Hid)
    as (pane & Hpane & view & _ & ->).
  do 3 eexists. split; [exact Hpanes|]. split; [exact Hid|].
  split; [exact Hpane|]. by repeat split.
Qed.

(** *** Tab changes fed back as [activeView] *)

(** X4. A tab change at an in-range index whose id is truthy passes that
    id to [setActiveView]; once the parent hands the id back as
    [activeView], the active index is the first index holding that id: at
    most the index clicked, and exactly it when the ids are distinct. *)
Theorem tab_change_round_trip this (i : nat) viewId :
  tabs (props this) !! i = Some viewId →
  truthy (Str viewId) = true →
  ∃ k : nat,
    dispatch (onTabChange (Z.of_nat i)) this
      = (this, [setActiveView (viewType (props this)) (Str viewId)]) ∧
    activeIndex (with_activeView this (Str viewId)) = Z.of_nat k ∧
    (k ≤ i)%nat ∧
    tabs (props this) !! k = Some viewId ∧
    (NoDup (tabs (props this)) → k = i).
Proof.
  intros Hi Htruthy.
  assert (Hcall : dispatch (onTabChange (Z.of_nat i)) this
            = (this, [setActiveView (viewType (props this)) (Str viewId)])).
  { rewrite dispatch_onTabChange. unfold JS.or.
    by rewrite (get_in_range _ _ Hi), Htruthy. }
  destruct (activeIndex_cases (with_activeView this (Str viewId)))
    as [[_ [Hnil | Habs]] | (k & s & Hk & Hv & Hks & Hfirst)]; cbn in *.
  - discriminate.
  - destruct (Habs viewId); [|reflexivity]. by eapply list_elem_of_lookup_2.
  - injection Hv as <-. exists k.
    split; [exact Hcall|].
    split; [exact Hk|].
    assert (Hle : (k ≤ i)%nat).
    { destruct (Nat.le_gt_cases k i) as [Hle | Hlt]; [exact Hle|].
      by destruct (Hfirst i Hlt). }
    split; [exact Hle|]. split; [exact Hks|].
    intros Hnodup. exact (NoDup_lookup _ _ _ _ Hnodup Hks Hi).
Qed.

(** X5. When a tab change falls back to the raw index (the id at that
    index is falsy, or there is none), [setActiveView] gets the number;
    once the parent hands that number back as [activeView], the active
    index is 0, whatever index was clicked. *)
Theorem tab_change_fallback_selects_first this (i : Z) :
  truthy (JS.get (tabs (props this)) i) = false →
  dispatch (onTabChange i) this
    = (this, [setActiveView (viewType (props this)) (Num i)]) ∧
  activeIndex (with_activeView this (Num i)) = 0.
Proof.
  intros Hfalsy. split.
  - rewrite dispatch_onTabChange. unfold JS.or. by rewrite Hfalsy.
  - destruct (activeIndex_cases (with_activeView this (Num i)))
      as [[Hzero _] | (k & s & _ & Hv & _)]; cbn in *; [exact Hzero | discriminate].
Qed.

(** X6. Whatever index a tab change reports, [setActiveView] is called
    once and its second argument is never [undefined], [null] or the empty
    string: it is either the number reported or the non-empty id that
    [tabs] holds at that index. *)
Theorem setActiveView_argument this (i : Z) :
  ∃ arg,
    dispatch (onTabChange i) this
      = (this, [setActiveView (viewType (props this)) arg]) ∧
    isNil arg = false ∧
    arg ≠ Str "" ∧
    (arg = Num i
     ∨ ∃ s, arg = Str s ∧ 0 ≤ i ∧ tabs (props this) !! Z.to_nat i = Some s).
Proof.
  eexists. split; [apply dispatch_onTabChange|].
  unfold JS.or, JS.get. destruct (Z.ltb_spec i 0) as [Hneg | Hpos]; cbn.
  - split; [reflexivity|]. split; [discriminate | by left].
  - destruct (tabs (props this) !! Z.to_nat i) as [s|] eqn:Hs; cbn.
    + destruct (String.eqb_spec s ""%string) as [-> | Hne]; cbn.
      * split; [reflexivity|]. split; [discriminate | by left].
      * split; [reflexivity|]. split; [congruence|]. right. by exists s.
    + split; [reflexivity|]. split; [discriminate | by left].
Qed.

(** *** The tree in each mode *)

Lemma render_tree this :
  views_cover_tabs (props this) →
  ∃ root real mode,
    render JSON_stringify this = OK root ∧
    Forall2 (is_tab_pane this) (tabs (props this)) real ∧
    panes this = OK (if editMode (state this) then real ++ [add_pane] else real) ∧
    (is_Some (Save_button root) ↔ editMode (state this) = true) ∧
    mode_button root = Some mode ∧
    Button_content mode
      = (if editMode (state this) then "View Charts" else "Edit Charts")%string ∧
    Button_icon mode
      = Some (if editMode (state this) then "unhide" else "configure")%string ∧
    (is_Some (tab_strip root)
     ↔ blank (props this) = false ∨ editMode (state this) = true).
Proof.
  intros Hcover.
  destruct (render_OK JSON_stringify this Hcover) as (real & Hall & Hpanes & Hrender).
  do 3 eexists. split; [exact Hrender|]. split; [exact Hall|].
  split; [exact Hpanes|].
  split; [|split; [reflexivity|]];
  destruct (editMode (state this)), (blank (props this)); cbn;
    repeat match goal with
           | |- _ ∧ _ => split
           | |- _ ↔ _ => split
           end;
    first [ reflexivity
          | intros _; by eexists
          | intros _; by left
          | intros _; by right
          | intros [? ?]; discriminate
          | intros [? | ?]; discriminate
          | intros ?; discriminate ].
Qed.

(** X7. A new instance starts in view mode: its first render has no Save
    Changes button and no add control, one pane per tab, a mode button
    reading Edit Charts, and a tab strip unless [blank] is set. *)
Theorem mount_renders_view_mode p :
  views_cover_tabs p →
  ∃ root real mode,
    render JSON_stringify (mount p) = OK root ∧
    panes (mount p) = OK real ∧
    length real = length (tabs p) ∧
    Forall (fun pane => add_control pane = None) real ∧
    Save_button root = None ∧
    mode_button root = Some mode ∧
    Button_content mode = "Edit Charts"%string ∧
    Button_icon mode = Some "configure"%string ∧
    (is_Some (tab_strip root) ↔ blank p = false).
Proof.
  intros Hcover.
  destruct (render_tree (mount p) Hcover)
    as (root & real & mode & Hrender & Hall & Hpanes & Hsave & Hmode
        & Hcontent & Hicon & Hstrip).
  cbn in *. exists root, real, mode.
  split; [exact Hrender|]. split; [exact Hpanes|].
  split; [symmetry; exact (Forall2_length _ _ _ Hall)|].
  split; [exact (tab_panes_no_add_control Hall)|].
  split.
  { destruct (Save_button root) eqn:E; [|reflexivity].
    assert (false = true) by (apply Hsave; by eexists). discriminate. }
  split; [exact Hmode|]. split; [exact Hcontent|]. split; [exact Hicon|].
  rewrite Hstrip. split; [intros [? | ?]; [done | discriminate] | by left].
Qed.

(** X8. Any number of clicks on the mode button calls no parent callback
    and leaves the props alone; [editMode] ends where it started after an
    even number of clicks and negated after an odd number. *)
Theorem mode_clicks_parity (n : nat) this :
  mode_clicks n this
  = ({| props := props this;
        state := {| editMode := if Nat.even n then editMode (state this)
                                else negb (editMode (state this)) |} |},
     []).
Proof.
  revert this. induction n as [|n IH]; intros this.
  - by destruct this as [p [em]].
  - cbn [mode_clicks]. rewrite dispatch_mode_onClick, IH. cbn [props state editMode].
    rewrite Nat.even_succ, <- Nat.negb_even.
    by destruct (Nat.even n), (editMode (state this)).
Qed.

(** X9. Whatever mode the component is in, the render that follows the
    Save Changes handler is a view-mode render: no Save Changes button, no
    add control among the panes, one pane per tab, and no tab strip when
    [blank] is set. *)
Theorem render_after_Save this :
  views_cover_tabs (props this) →
  ∃ root real,
    render JSON_stringify (fst (dispatch (Save_onClick JSON_stringify) this))
      = OK root ∧
    panes (fst (dispatch (Save_onClick JSON_stringify) this)) = OK real ∧
    length real = length (tabs (props this)) ∧
    Forall (fun pane => add_control pane = None) real ∧
    Save_button root = None ∧
    (is_Some (tab_strip root) ↔ blank (props this) = false).
Proof.
  intros Hcover. rewrite dispatch_Save_onClick. cbn [fst].
  destruct (render_tree {| props := props this; state := {| editMode := false |} |}
              Hcover)
    as (root & real & mode & Hrender & Hall & Hpanes & Hsave & _ & _ & _ & Hstrip).
  cbn in *. exists root, real.
  split; [exact Hrender|]. split; [exact Hpanes|].
  split; [symmetry; exact (Forall2_length _ _ _ Hall)|].
  split; [exact (tab_panes_no_add_control Hall)|].
  split.
  { destruct (Save_button root) eqn:E; [|reflexivity].
    assert (false = true) by (apply Hsave; by eexists). discriminate. }
  rewrite Hstrip. split; [intros [? | ?]; [done | discriminate] | by left].
Qed.

(** X13. The render that follows a click on the mode button shows the
    other mode over the same tab panes: the pane list after the click is
    the pane list before it with the add control removed, when leaving
    edit mode, or appended, when entering it; the Save Changes button is
    there exactly when the component was in view mode before, and the mode
    button reads View Charts after leaving view mode and Edit Charts after
    leaving edit mode. *)
Theorem render_after_mode_click this :
  views_cover_tabs (props this) →
  ∃ root real mode,
    Forall2 (is_tab_pane this) (tabs (props this)) real ∧
    Forall (fun pane => add_control pane = None) real ∧
    length real = length (tabs (props this)) ∧
    panes this
      = OK (if editMode (state this) then real ++ [add_pane] else real) ∧
    panes (fst (dispatch mode_onClick this))
      = OK (if editMode (state this) then real else real ++ [add_pane]) ∧
    render JSON_stringify (fst (dispatch mode_onClick this)) = OK root ∧
    (∀ strip, tab_strip root = Some strip →
       Tab_panes strip
         = if editMode (state this) then real else real ++ [add_pane]) ∧
    (is_Some (Save_button root) ↔ editMode (state this) = false) ∧
    mode_button root = Some mode ∧
    Button_content mode
      = (if editMode (state this) then "Edit Charts" else "View Charts")%string.
Proof.
  intros Hcover.
  destruct (tab_panes_OK this Hcover) as (real & Hreal & Hall).
  assert (Hpanes : panes this
            = OK (if editMode (state this) then real ++ [add_pane] else real)).
  { unfold panes. by rewrite Hreal. }
  rewrite dispatch_mode_onClick. cbn [fst].
  assert (Hafter :
    panes {| props := props this;
             state := {| editMode := negb (editMode (state this)) |} |}
    = OK (if editMode (state this) then real else real ++ [add_pane])).
  { unfold panes. cbn [props state editMode].
    change (Array_map _ (tabs (props this)))
      with (Array_map (tab_pane this) (tabs (props this))).
    rewrite Hreal. by destruct (editMode (state this)). }
  pose proof (render_panes JSON_stringify _ Hafter) as Hrender.
  cbn [props state editMode] in Hrender.
  do 3 eexists. split; [exact Hall|].
  split; [exact (tab_panes_no_add_control Hall)|].
  split; [symmetry; exact (Forall2_length _ _ _ Hall)|].
  split; [exact Hpanes|]. split; [exact Hafter|]. split; [exact Hrender|].
  split; [|split; [|split; [reflexivity|]]];
    destruct (editMode (state this)), (blank (props this)); cbn;
    first [ reflexivity
          | by intros strip [= <-]
          | intros strip Hnone; discriminate
          | split; [intros [? ?] | intros ?]; discriminate
          | split; intros _; [reflexivity | by eexists] ].
Qed.

(** *** Menu keys *)

Lemma tab_panes_keys this (ids : list string)
    (real : list (Pane ViewType ViewState Renderable)) :
  Forall2 (is_tab_pane this) ids real → menu_key <$> real = ids.
Proof.
  induction 1 as [|viewId pane ids real (view & _ & ->) _ IH];
    [reflexivity|]. cbn. by rewrite IH.
Qed.

(** X10. The keys of the menu items are the tab ids in order, followed in
    edit mode by the key of the add control; they are pairwise distinct
    exactly when the tab ids are and, in edit mode, no tab id is the
    string add. *)
Theorem pane_keys this :
  views_cover_tabs (props this) →
  ∃ ps,
    panes this = OK ps ∧
    menu_key <$> ps
      = tabs (props this) ++ (if editMode (state this) then ["add"%string] else []) ∧
    (NoDup (menu_key <$> ps)
     ↔ NoDup (tabs (props this))
       ∧ (editMode (state this) = true → "add"%string ∉ tabs (props this))).
Proof.
  intros Hcover. destruct (panes_OK this Hcover) as (real & Hall & Hpanes).
  eexists. split; [exact Hpanes|].
  pose proof (tab_panes_keys this _ _ Hall) as Hkeys.
  destruct (editMode (state this)).
  - rewrite fmap_app, Hkeys. cbn [fmap list_fmap menu_key menuItem add_pane].
    split; [reflexivity|]. rewrite NoDup_app. split.
    + intros (Hnodup & Hdisjoint & _). split; [exact Hnodup|].
      intros _ Hin. apply (Hdisjoint _ Hin). by left.
    + intros [Hnodup Hfresh]. split; [exact Hnodup|]. split.
      * intros x Hx Hadd. apply list_elem_of_singleton in Hadd as ->. by apply Hfresh.
      * apply NoDup_singleton.
  - rewrite Hkeys, app_nil_r. split; [reflexivity|]. split.
    + intros Hnodup. split; [exact Hnodup | discriminate].
    + by intros [Hnodup _].
Qed.

(** *** What [render] reads of [views] *)

Lemma Array_map_ext {A B : Type} (f g : A → result B) (array : list A) :
  (∀ x, x ∈ array → f x = g x) → Array_map f array = Array_map g array.
Proof.
  induction array as [|x rest IH]; intros Hext; [reflexivity|].
  cbn [Array_map]. rewrite (Hext x); [|by left].
  rewrite IH; [reflexivity|]. intros y Hy. apply Hext. by right.
Qed.

(** X11. The panes depend on [views] only through the entries of the
    ids in [tabs]: two instances with the same tabs and the same
    [editMode] whose [views] agree on those ids build the same panes, or
    both throw. *)
Theorem panes_read_views_at_tabs_only this other :
  tabs (props this) = tabs (props other) →
  editMode (state this) = editMode (state other) →
  (∀ viewId, viewId ∈ tabs (props this) →
     views (props this) !! viewId = views (props other) !! viewId) →
  panes this = panes other.
Proof.
  intros Htabs Hmode Hviews. unfold panes. rewrite <- Htabs, <- Hmode.
  rewrite (Array_map_ext (tab_pane this) (tab_pane other)); [reflexivity|].
  intros viewId Hin. unfold tab_pane, member. by rewrite (Hviews viewId Hin).
Qed.

(** *** No tabs *)

(** X12. With an empty [tabs], [render] returns whatever [views] and
    [activeView] are, and the active index is 0. In view mode there is no
    pane at all; in edit mode the only pane, the one at the active index,
    is the add control, which has no body to show. *)
Theorem no_tabs_renders this :
  tabs (props this) = [] →
  (∃ root, render JSON_stringify this = OK root) ∧
  activeIndex this = 0 ∧
  panes this = OK (if editMode (state this) then [add_pane] else []) ∧
  (editMode (state this) = true →
   ∃ ps pane onClick,
     panes this = OK ps ∧
     ps !! Z.to_nat (activeIndex this) = Some pane ∧
     add_control pane = Some onClick ∧
     pane_body this pane = None).
Proof.
  intros Hempty.
  assert (Hpanes : panes this = OK (if editMode (state this) then [add_pane] else [])).
  { unfold panes. by rewrite Hempty. }
  assert (Hindex : activeIndex this = 0).
  { destruct (activeIndex_cases this) as [[Hzero _] | (i & s & _ & _ & Hi & _)];
      [exact Hzero|]. rewrite Hempty in Hi. discriminate. }
  split; [eexists; exact (render_panes JSON_stringify this Hpanes)|].
  split; [exact Hindex|]. split; [exact Hpanes|].
  intros Hedit. rewrite Hedit in Hpanes. rewrite Hindex.
  by exists [add_pane], add_pane, add_onClick.
Qed.

(** *** An edit session *)

(** X14. From a new instance whose props report a modification, a click
    on the mode button followed by a click on Save Changes brings the
    instance back to its initial state; the first click calls nothing and
    the second calls [updateViews] once with [JSON.stringify(viewState)]. *)
Theorem edit_session_round_trip p :
  views_cover_tabs p →
  isModified p = true →
  ∃ root mode edited root' save,
    render JSON_stringify (mount p) = OK root ∧
    mode_button root = Some mode ∧
    dispatch (Button_click mode) (mount p) = (edited, []) ∧
    render JSON_stringify edited = OK root' ∧
    Save_button root' = Some save ∧
    dispatch (Button_click save) edited
      = (mount p, [updateViews (JSON_stringify (viewState p))]).
Proof.
  intros Hcover Hmodified.
  destruct (render_OK JSON_stringify (mount p) Hcover) as (real & _ & _ & Hrender).
  destruct (render_OK JSON_stringify
              {| props := p; state := {| editMode := true |} |} Hcover)
    as (real' & _ & _ & Hrender').
  do 5 eexists. split; [exact Hrender|]. split; [reflexivity|].
  split; [reflexivity|]. split; [exact Hrender'|]. split; [reflexivity|].
  unfold Button_click. cbn [Button_disabled Button_onClick props state editMode].
  rewrite Hmodified. reflexivity.
Qed.

End Further.

(** * The further properties at the sample inputs *)

Lemma activeIndex_in_range_witness :
  0 ≤ activeIndex (viewing (alpha_beta (Str "b") false false)) < 2.
Proof.
  destruct (activeIndex_in_range (viewing (alpha_beta (Str "b") false false)))
    as [Hlow Hhigh].
  split; [exact Hlow | apply Hhigh; discriminate].
Defined.

Lemma active_pane_is_active_view_witness :
  ∃ ps pane,
    panes (viewing (alpha_beta (Str "b") false false)) = OK ps ∧
    ps !! Z.to_nat (activeIndex (viewing (alpha_beta (Str "b") false false)))
      = Some pane ∧
    menu_key pane = "b"%string.
Proof.
  destruct (active_pane_is_active_view (viewing (alpha_beta (Str "b") false false)))
    as (ps & viewId & pane & Hpanes & _ & Hpane & Hkey & _ & _ & Hactive);
    [covered | discriminate |].
  exists ps, pane. split; [exact Hpanes|]. split; [exact Hpane|].
  rewrite Hkey. apply Hactive; [reflexivity|]. right. left.
Defined.

Lemma tab_change_round_trip_witness :
  dispatch (onTabChange 1) (viewing (alpha_beta undefined false false))
    = (viewing (alpha_beta undefined false false),
       [setActiveView "runs"%string (Str "b")]) ∧
  activeIndex (with_activeView (viewing (alpha_beta undefined false false)) (Str "b"))
    = 1.
Proof.
  destruct (tab_change_round_trip (viewing (alpha_beta undefined false false))
              1%nat "b"%string)
    as (k & Hcall & Hindex & _ & _ & Hsame);
    [reflexivity | reflexivity |].
  split; [exact Hcall|]. rewrite Hindex, Hsame; [reflexivity|].
  apply NoDup_cons. split.
  - intros Hin. apply elem_of_cons in Hin as [Hin | Hin]; [discriminate|].
    by apply elem_of_nil in Hin.
  - apply NoDup_singleton.
Defined.

Lemma tab_change_fallback_selects_first_witness :
  dispatch (onTabChange 2) (editing (alpha_beta undefined false false))
    = (editing (alpha_beta undefined false false),
       [setActiveView "runs"%string (Num 2)]) ∧
  activeIndex (with_activeView (editing (alpha_beta undefined false false)) (Num 2))
    = 0.
Proof.
  apply (tab_change_fallback_selects_first
           (editing (alpha_beta undefined false false)) 2).
  reflexivity.
Defined.

Lemma mount_renders_view_mode_witness :
  ∃ root,
    render stringify_bool (mount (alpha_beta undefined false true)) = OK root ∧
    Save_button root = None.
Proof.
  destruct (mount_renders_view_mode stringify_bool (alpha_beta undefined false true))
    as (root & real & mode & Hrender & _ & _ & _ & Hsave & _);
    [covered|].
  by exists root.
Defined.

Lemma render_after_Save_witness :
  ∃ root,
    render stringify_bool
      (fst (dispatch (Save_onClick stringify_bool)
              (editing (alpha_beta undefined false true)))) = OK root ∧
    Save_button root = None.
Proof.
  destruct (render_after_Save stringify_bool
              (editing (alpha_beta undefined false true)))
    as (root & real & Hrender & _ & _ & _ & Hsave & _);
    [covered|].
  by exists root.
Defined.

Lemma pane_keys_witness :
  ∃ ps,
    panes (editing (alpha_beta undefined false false)) = OK ps ∧
    menu_key <$> ps = ["a"; "b"; "add"]%string.
Proof.
  destruct (pane_keys (editing (alpha_beta undefined false false)))
    as (ps & Hpanes & Hkeys & _);
    [covered|].
  by exists ps.
Defined.

(** The view "c" that no tab names changes nothing. *)
Lemma panes_read_views_at_tabs_only_witness :
  panes (viewing (alpha_beta undefined false false))
  = panes (viewing alpha_beta_gamma).
Proof.
  apply (panes_read_views_at_tabs_only
           (viewing (alpha_beta undefined false false)) (viewing alpha_beta_gamma));
    [reflexivity | reflexivity |].
  intros viewId Hin.
  repeat (apply elem_of_cons in Hin as [-> | Hin]; [vm_compute; reflexivity|]).
  by apply elem_of_nil in Hin.
Defined.

Lemma no_tabs_renders_witness :
  activeIndex (editing no_tabs) = 0 ∧
  panes (editing no_tabs) = OK [add_pane].
Proof.
  destruct (no_tabs_renders stringify_bool (editing no_tabs))
    as (_ & Hindex & Hpanes & _);
    [reflexivity|].
  by split.
Defined.

Lemma render_after_mode_click_witness :
  ∃ real root mode,
    panes (viewing (alpha_beta undefined false false)) = OK real ∧
    panes (fst (dispatch mode_onClick (viewing (alpha_beta undefined false false))))
      = OK (real ++ [add_pane]) ∧
    render stringify_bool
      (fst (dispatch mode_onClick (viewing (alpha_beta undefined false false))))
      = OK root ∧
    mode_button root = Some mode ∧
    Button_content mode = "View Charts"%string.
Proof.
  destruct (render_after_mode_click stringify_bool
              (viewing (alpha_beta undefined false false)))
    as (root & real & mode & _ & _ & _ & Hbefore & Hafter & Hrender & _ & _
        & Hmode & Hcontent);
    [covered|].
  by exists real, root, mode.
Defined.

Lemma edit_session_round_trip_witness :
  ∃ edited save,
    dispatch (Button_click save) edited
      = (mount (alpha_beta undefined false true), [updateViews (Str "true")]).
Proof.
  destruct (edit_session_round_trip stringify_bool (alpha_beta undefined false true))
    as (root & mode & edited & root' & save & _ & _ & _ & _ & _ & Hsave);
    [covered | reflexivity |].
  by exists edited, save.
Defined.
